(** * telegram/payment/precheckoutquery.py

  A shallow embedding of the [PreCheckoutQuery] class of
  python-telegram-bot and the properties of its constructor, its
  deserialisation factory [de_json], its equality and its [answer]
  shortcut.

  The class is written in Python: values are dynamically typed, the wire
  map handed to [de_json] is a mutable dictionary living in the heap, and
  every step may raise.  The embedding keeps these three aspects:
  - [value] is the type of the Python values the class handles,
  - dictionaries passed by reference are objects of a [heap],
  - code runs in a state-and-exception monad [M].

  [User], [OrderInfo] and [Bot] are classes defined elsewhere; they appear
  as an interface, [Collaborators].  Floating-point numbers are left out
  of [value]. *)

From Stdlib Require Import ZArith String List Lia Bool.
From stdpp Require Import base option gmap strings list fin_maps.

Set Warnings "-register-all".

Local Open Scope string_scope.
Local Open Scope Z_scope.

(** ** Exceptions *)

(** Why a call was refused while its arguments were bound to the
    parameters of the callee. *)
Inductive type_error : Type :=
| MultipleValues                          (* got multiple values for (keyword) argument *)
| TooManyPositional (given : nat)         (* takes ... positional arguments but [given] were given *)
| MissingRequired (names : list string)   (* missing required positional arguments: [names] *)
| NotAMapping (type_name : string).       (* argument after ** must be a mapping, not [type_name] *)

Inductive exn : Type :=
| KeyError (key : string)
| TypeError (why : type_error)
| AttributeError (type_name attr : string)
| Exception (msg : string)                (* anything else a collaborator raises *)
| DanglingReference.                      (* not a Python exception: the model's outcome for a
                                             location the heap does not hold *)

(** The outcome of a Python expression: an exception or a result. *)
Definition result (A : Type) : Type := exn + A.

#[global] Instance result_ret : MRet result := fun A (a : A) => inr a.
#[global] Instance result_bind : MBind result := fun A B (f : A -> result B) r =>
  match r with
  | inl e => inl e
  | inr a => f a
  end.

Definition raised {A} (r : result A) : bool :=
  match r with inl _ => true | inr _ => false end.

(** ** Python values *)

Section Values.
Variables User OrderInfo Bot : Type.

Inductive value : Type :=
| VNone
| VBool (b : bool)
| VInt (n : Z)
| VStr (s : string)
| VList (xs : list value)
| VDict (kvs : list (string * value))   (* a nested JSON object, keys distinct *)
| VUser (u : User)
| VOrderInfo (o : OrderInfo)
| VBot (b : Bot).
End Values.

Arguments VNone {User OrderInfo Bot}.
Arguments VBool {User OrderInfo Bot} b.
Arguments VInt {User OrderInfo Bot} n.
Arguments VStr {User OrderInfo Bot} s.
Arguments VList {User OrderInfo Bot} xs.
Arguments VDict {User OrderInfo Bot} kvs.
Arguments VUser {User OrderInfo Bot} u.
Arguments VOrderInfo {User OrderInfo Bot} o.
Arguments VBot {User OrderInfo Bot} b.

(** Lookup in a nested object. *)
Fixpoint assoc {A} (k : string) (kvs : list (string * A)) : option A :=
  match kvs with
  | [] => None
  | (k', v) :: rest => if String.eqb k k' then Some v else assoc k rest
  end.

(** Heap locations of dictionaries. *)
Definition loc : Type := positive.

(** ** The classes this module imports *)

Class Collaborators (User OrderInfo Bot World : Type) : Type := {
  (* User.de_json(data, bot) -> Optional[User] *)
  User_de_json : value User OrderInfo Bot -> value User OrderInfo Bot -> result (option User);
  (* OrderInfo.de_json(data, bot) -> Optional[OrderInfo] *)
  OrderInfo_de_json : value User OrderInfo Bot -> value User OrderInfo Bot -> result (option OrderInfo);
  (* bot.answer_pre_checkout_query with positional and keyword arguments -> bool,
     acting on the outside world *)
  answer_pre_checkout_query :
    Bot -> list (value User OrderInfo Bot) -> gmap string (value User OrderInfo Bot) ->
    World -> result bool * World;
  (* the __eq__ of the three classes *)
  User_eq : User -> User -> bool;
  OrderInfo_eq : OrderInfo -> OrderInfo -> bool;
  Bot_eq : Bot -> Bot -> bool
}.

Section PreCheckoutQuery.
Context {User OrderInfo Bot World : Type}.
Context `{!Collaborators User OrderInfo Bot World}.

Local Abbreviation value := (value User OrderInfo Bot).
Local Abbreviation dict := (gmap string value).

(** Python's [==] on values.  [bool] is a subclass of [int], so [True == 1];
    lists compare element by element, dictionaries key by key whatever
    the order of the keys; values of unrelated types are unequal. *)
Fixpoint py_eq (a b : value) {struct a} : bool :=
  match a, b with
  | VNone, VNone => true
  | VBool x, VBool y => Bool.eqb x y
  | VBool x, VInt y => Z.b2z x =? y
  | VInt x, VBool y => x =? Z.b2z y
  | VInt x, VInt y => x =? y
  | VStr x, VStr y => String.eqb x y
  | VList xs, VList ys =>
      (fix go (xs ys : list value) : bool :=
         match xs, ys with
         | [], [] => true
         | x :: xs', y :: ys' => py_eq x y && go xs' ys'
         | _, _ => false
         end) xs ys
  | VDict xs, VDict ys =>
      Nat.eqb (length xs) (length ys) &&
      (fix all (xs : list (string * value)) : bool :=
         match xs with
         | [] => true
         | (k, v) :: xs' =>
             match assoc k ys with
             | Some w => py_eq v w
             | None => false
             end && all xs'
         end) xs
  | VUser x, VUser y => User_eq x y
  | VOrderInfo x, VOrderInfo y => OrderInfo_eq x y
  | VBot x, VBot y => Bot_eq x y
  | _, _ => false
  end.

(** [==] on tuples: same length and equal components.  (The interpreter
    lets two components that are one and the same object pass without
    asking [==]; values here have no identity, and for data, where [==] is
    reflexive, nothing is lost.) *)
Fixpoint py_eq_tuple (xs ys : list value) : bool :=
  match xs, ys with
  | [], [] => true
  | x :: xs', y :: ys' => py_eq x y && py_eq_tuple xs' ys'
  | _, _ => false
  end.

(** The name Python prints for the type of a value. *)
Definition type_name (v : value) : string :=
  match v with
  | VNone => "NoneType"
  | VBool _ => "bool"
  | VInt _ => "int"
  | VStr _ => "str"
  | VList _ => "list"
  | VDict _ => "dict"
  | VUser _ => "User"
  | VOrderInfo _ => "OrderInfo"
  | VBot _ => "Bot"
  end.

(** [Optional[T]] results stored as values. *)
Definition of_user (u : option User) : value := from_option VUser VNone u.
Definition of_order_info (o : option OrderInfo) : value := from_option VOrderInfo VNone o.

(** ** State and the monad of effects *)

(** One call of [bot.answer_pre_checkout_query]. *)
Definition call : Type := Bot * list value * dict.

Record state : Type := {
  heap : gmap loc dict;   (* the dictionaries that are passed by reference *)
  world : World;          (* whatever the bot talks to *)
  calls : list call       (* the requests sent through a bot so far, oldest first *)
}.

Definition M (A : Type) : Type := state -> result A * state.

#[global] Instance M_ret : MRet M := fun A (a : A) st => (inr a, st).
#[global] Instance M_bind : MBind M := fun A B (f : A -> M B) (m : M A) st =>
  match m st with
  | (inl e, st') => (inl e, st')
  | (inr a, st') => f a st'
  end.

Definition raise {A} (e : exn) : M A := fun st => (inl e, st).

(** A collaborator that neither reads nor writes the state. *)
Definition lift {A} (r : result A) : M A := fun st => (r, st).

Definition set_heap (h : gmap loc dict) (st : state) : state :=
  {| heap := h; world := world st; calls := calls st |}.

Definition deref (l : loc) : M dict := fun st =>
  match heap st !! l with
  | Some d => (inr d, st)
  | None => (inl DanglingReference, st)
  end.

Definition store (l : loc) (d : dict) : M unit := fun st =>
  (inr tt, set_heap (<[l := d]> (heap st)) st).

(** A new dictionary object at a location not in use. *)
Definition alloc (d : dict) : M loc := fun st =>
  let l := fresh (dom (heap st)) in
  (inr l, set_heap (<[l := d]> (heap st)) st).

(** [data.pop(key)] *)
Definition dict_pop (l : loc) (key : string) : M value :=
  d ← deref l;
  match d !! key with
  | Some v => store l (delete key d);; mret v
  | None => raise (KeyError key)
  end.

(** [data.get(key)] *)
Definition dict_get (l : loc) (key : string) : M value :=
  d ← deref l; mret (default VNone (d !! key)).

(** [data[key] = v] *)
Definition dict_setitem (l : loc) (key : string) (v : value) : M unit :=
  d ← deref l; store l (<[key := v]> d).

(** [not data] for a dictionary. *)
Definition dict_is_empty (d : dict) : bool := Nat.eqb (size d) 0.

(** ** The record *)

Record PreCheckoutQuery : Type := {
  id : value;
  from_user : value;
  currency : value;
  total_amount : value;
  invoice_payload : value;
  shipping_option_id : value;
  order_info : value;
  bot : value;
  _id_attrs : list value
}.

(** The parameters of [__init__] after [self], in order; the first five
    have no default. *)
Definition params : list string :=
  ["id"; "from_user"; "currency"; "total_amount"; "invoice_payload";
   "shipping_option_id"; "order_info"; "bot"].

(** The whole parameter list.  [self] is bound to the instance before any
    argument is looked at, so it always counts as filled by position. *)
Definition signature : list string := "self" :: params.

Definition required : list (nat * string) :=
  [(0, "id"); (1, "from_user"); (2, "currency"); (3, "total_amount");
   (4, "invoice_payload")]%nat.

(** The argument the call binds to parameter number [i], called [name]:
    the [i]-th positional argument, or else the keyword argument [name]. *)
Definition bound (args : list value) (kwargs : dict) (i : nat) (name : string)
  : option value :=
  match args !! i with
  | Some v => Some v
  | None => kwargs !! name
  end.

Definition has_key (d : dict) (key : string) : bool := bool_decide (is_Some (d !! key)).

(** The required parameters the call leaves unbound. *)
Definition missing (args : list value) (kwargs : dict) : list string :=
  (filter (fun p => bound args kwargs p.1 p.2 = None) required).*2.

(** A call of the constructor with positional arguments [args] and keyword
    arguments [kwargs].  The interpreter binds the arguments first, the
    instance to [self] and [args] to the parameters that follow: it refuses
    a keyword naming a parameter that is already filled by position, [self]
    for one, then a positional argument too many (it counts the instance
    among them), then an unbound parameter without default.  Keywords that
    name no parameter land in [**_kwargs], which the body never reads.  The
    body stores the eight parameters and the 1-tuple [_id_attrs]. *)
Definition __init__ (args : list value) (kwargs : dict) : result PreCheckoutQuery :=
  if existsb (has_key kwargs) (take (S (length args)) signature) then
    inl (TypeError MultipleValues)
  else if (length signature <? S (length args))%nat then
    inl (TypeError (TooManyPositional (S (length args))))
  else
    match bound args kwargs 0 "id", bound args kwargs 1 "from_user",
          bound args kwargs 2 "currency", bound args kwargs 3 "total_amount",
          bound args kwargs 4 "invoice_payload" with
    | Some id, Some from_user, Some currency, Some total_amount, Some invoice_payload =>
        inr {| id := id;
               from_user := from_user;
               currency := currency;
               total_amount := total_amount;
               invoice_payload := invoice_payload;
               shipping_option_id := default VNone (bound args kwargs 5 "shipping_option_id");
               order_info := default VNone (bound args kwargs 6 "order_info");
               bot := default VNone (bound args kwargs 7 "bot");
               _id_attrs := [id] |}
    | _, _, _, _, _ => inl (TypeError (MissingRequired (missing args kwargs)))
    end.

(** [cls(bot=bot, **data)]: a dictionary unpacked next to an explicit
    keyword must not hold that keyword. *)
Definition call_cls (bot : value) (data : dict) : result PreCheckoutQuery :=
  if has_key data "bot" then inl (TypeError MultipleValues)
  else __init__ [] (<["bot" := bot]> data).

(** Modelled from the spec: [TelegramObject.parse_data], inherited by the
    class and not in this module.  Nothing for an absent or empty map,
    else a shallow copy of the map: a new dictionary with the same
    entries. *)
Definition parse_data (data : option loc) : M (option loc) :=
  match data with
  | None => mret None
  | Some l =>
      d ← deref l;
      if dict_is_empty d then mret None
      else l' ← alloc d; mret (Some l')
  end.

Definition de_json (data : option loc) (bot : value) : M (option PreCheckoutQuery) :=
  data ← parse_data data;
  match data with
  | None => mret None
  | Some data =>
      d ← deref data;
      if dict_is_empty d then mret None
      else
        from ← dict_pop data "from";
        u ← lift (User_de_json from bot);
        dict_setitem data "from_user" (of_user u);;
        oi ← dict_get data "order_info";
        o ← lift (OrderInfo_de_json oi bot);
        dict_setitem data "order_info" (of_order_info o);;
        kwargs ← deref data;
        r ← lift (call_cls bot kwargs);
        mret (Some r)
  end.

(** The dictionary [de_json] unpacks into the constructor call: the copy
    of the wire map [d] after its three updates. *)
Definition unpacked (d : dict) (u o : value) : dict :=
  <["order_info" := o]> (<["from_user" := u]> (delete "from" d)).

(** What [de_json] computes, read off the content [d] of the dictionary it
    is given: the heap only serves to hold the copy.  [de_json_run] below
    proves that running [de_json] yields this outcome. *)
Definition de_json_value (d : dict) (bot : value) : result (option PreCheckoutQuery) :=
  if dict_is_empty d then inr None
  else
    match d !! "from" with
    | None => inl (KeyError "from")
    | Some from =>
        u ← User_de_json from bot;
        o ← OrderInfo_de_json (default VNone (d !! "order_info")) bot;
        r ← call_cls bot (unpacked d (of_user u) (of_order_info o));
        inr (Some r)
    end.

(** Modelled from the spec: [TelegramObject.__eq__], inherited by the class
    and not in this module.  Two records are equal when their [_id_attrs]
    tuples are. *)
Definition __eq__ (self other : PreCheckoutQuery) : bool :=
  py_eq_tuple (_id_attrs self) (_id_attrs other).

(** [bot.answer_pre_checkout_query(...)] on a bot: the request is sent;
    what comes back, a boolean or an exception, is the collaborator's. *)
Definition invoke (b : Bot) (args : list value) (kwargs : dict) : M bool := fun st =>
  let '(r, w) := answer_pre_checkout_query b args kwargs (world st) in
  (r, {| heap := heap st; world := w; calls := calls st ++ [(b, args, kwargs)] |}).

(** The call binds the record to [self], the positional arguments to
    [*args] and the keywords to [**kwargs]: a keyword [self] is refused
    there, before the body runs.  The body forwards [self.id], then [args],
    and [kwargs] to [self.bot.answer_pre_checkout_query]; only a [Bot] has
    the attribute. *)
Definition answer (self : PreCheckoutQuery) (args : list value) (kwargs : dict) : M bool :=
  if has_key kwargs "self" then raise (TypeError MultipleValues)
  else
    match bot self with
    | VBot b => invoke b (id self :: args) kwargs
    | v => raise (AttributeError (type_name v) "answer_pre_checkout_query")
    end.

End PreCheckoutQuery.

Arguments PreCheckoutQuery : clear implicits.
Arguments state : clear implicits.

(** ** Test doubles

  Concrete collaborators on which the definitions run: a user is known by
  its numeric id, an order by the customer's name, a bot by its token, and
  the world counts the requests it has served. *)
Module Stub.

Definition User : Type := Z.
Definition OrderInfo : Type := string.
Definition Bot : Type := string.
Definition World : Type := nat.

Local Abbreviation value := (value User OrderInfo Bot).
Local Abbreviation state := (state User OrderInfo Bot World).
Local Abbreviation PreCheckoutQuery := (PreCheckoutQuery User OrderInfo Bot).

(** [not data] *)
Definition falsy (data : value) : bool :=
  match data with
  | VNone | VBool false | VInt 0 | VStr "" | VList [] | VDict [] => true
  | _ => false
  end.

Definition absent {A} (kvs : list (string * A)) (key : string) : bool :=
  match assoc key kvs with
  | None => true
  | Some _ => false
  end.

(** The factory of users, after the repository's: nothing for data that is
    nothing or empty, else a copy of the data unpacked into the constructor
    next to the bot.  The constructor wants [id], [first_name] and [is_bot].
    The double keeps the id, and gives up on an id that is no integer. *)
Definition user_de_json (data bot : value) : result (option User) :=
  if falsy data then inr None
  else
    match data with
    | VDict kvs =>
        if negb (absent kvs "bot") || negb (absent kvs "self") then
          inl (TypeError MultipleValues)
        else
          match List.filter (absent kvs) ["id"; "first_name"; "is_bot"] with
          | [] =>
              match assoc "id" kvs with
              | Some (VInt n) => inr (Some n)
              | _ => inl (Exception "the double keeps integer ids only")
              end
          | names => inl (TypeError (MissingRequired names))
          end
    | VList _ => inl (TypeError (NotAMapping "list"))
    | _ => inl (AttributeError (type_name data) "copy")
    end.

(** The factory of orders, after the repository's: an empty order for data
    that is nothing or empty, else the order made of a copy of the data.
    Every field of an order is optional; the double keeps the name, empty
    when there is none. *)
Definition order_info_de_json (data bot : value) : result (option OrderInfo) :=
  if falsy data then inr (Some "")
  else
    match data with
    | VDict kvs =>
        match assoc "name" kvs with
        | Some (VStr s) => inr (Some s)
        | _ => inr (Some "")
        end
    | VList _ => inl (AttributeError "list" "get")
    | _ => inl (AttributeError (type_name data) "copy")
    end.

(** The bot wants the query id first and [ok] second, by position or by
    keyword, and reports [ok] back. *)
Definition bot_answer (b : Bot) (args : list value) (kwargs : gmap string value)
    (w : World) : result bool * World :=
  match args !! 0%nat, (match args !! 1%nat with Some v => Some v | None => kwargs !! "ok" end) with
  | Some _, Some (VBool ok) => (inr ok, S w)
  | _, _ => (inl (TypeError (MissingRequired ["ok"])), w)
  end.

#[global] Instance collaborators : Collaborators User OrderInfo Bot World := {|
  User_de_json := user_de_json;
  OrderInfo_de_json := order_info_de_json;
  answer_pre_checkout_query := bot_answer;
  User_eq := Z.eqb;
  OrderInfo_eq := String.eqb;
  Bot_eq := String.eqb
|}.

Definition alice : value :=
  VDict [("id", VInt 1); ("is_bot", VBool false); ("first_name", VStr "A")].

(** The example of the specification. *)
Definition wire : gmap string value :=
  <["id" := VStr "42"]> (<["from" := alice]> (<["currency" := VStr "USD"]>
    (<["total_amount" := VInt 145]> (<["invoice_payload" := VStr "p"]> ∅)))).

(** The same without its sender. *)
Definition wire_no_from : gmap string value := delete "from" wire.

(** The same with a key called like the constructor's last parameter. *)
Definition wire_bot : gmap string value := <["bot" := VInt 1]> wire.

(** A state whose heap holds [d] at location 1. *)
Definition holding (d : gmap string value) : state :=
  {| heap := {[ 1%positive := d ]}; world := 0%nat; calls := [] |}.

Definition the_bot : value := VBot "token".

(** A state with an empty heap. *)
Definition idle : state :=
  {| heap := ∅; world := 0%nat; calls := [] |}.

(** Two constructor calls with the same [id] and nothing else in common,
    and the records they make. *)
Definition query_args : list value :=
  [VStr "42"; VUser 1; VStr "USD"; VInt 145; VStr "p"].

Definition query : PreCheckoutQuery :=
  {| id := VStr "42"; from_user := VUser 1; currency := VStr "USD";
     total_amount := VInt 145; invoice_payload := VStr "p";
     shipping_option_id := VNone; order_info := VNone; bot := the_bot;
     _id_attrs := [VStr "42"] |}.

Definition other_args : list value :=
  [VStr "42"; VUser 2; VStr "EUR"; VInt 7; VStr "q"; VStr "express"; VOrderInfo "B"].

Definition other : PreCheckoutQuery :=
  {| id := VStr "42"; from_user := VUser 2; currency := VStr "EUR";
     total_amount := VInt 7; invoice_payload := VStr "q";
     shipping_option_id := VStr "express"; order_info := VOrderInfo "B";
     bot := the_bot; _id_attrs := [VStr "42"] |}.

(** What the factory makes of the example map: the order is there, empty. *)
Definition decoded : PreCheckoutQuery :=
  {| id := VStr "42"; from_user := VUser 1; currency := VStr "USD";
     total_amount := VInt 145; invoice_payload := VStr "p";
     shipping_option_id := VNone; order_info := VOrderInfo ""; bot := the_bot;
     _id_attrs := [VStr "42"] |}.

(** The example map with an order, and what the factory makes of it. *)
Definition wire_order : gmap string value :=
  <["order_info" := VDict [("name", VStr "B")]]> wire.

Definition decoded_order : PreCheckoutQuery :=
  {| id := VStr "42"; from_user := VUser 1; currency := VStr "USD";
     total_amount := VInt 145; invoice_payload := VStr "p";
     shipping_option_id := VNone; order_info := VOrderInfo "B"; bot := the_bot;
     _id_attrs := [VStr "42"] |}.


(** Arguments no payment would carry: an empty id, a negative amount. *)
Definition odd_args : list value :=
  [VStr ""; VUser 1; VStr "USD"; VInt (-1); VStr "p"].

Definition odd : PreCheckoutQuery :=
  {| id := VStr ""; from_user := VUser 1; currency := VStr "USD";
     total_amount := VInt (-1); invoice_payload := VStr "p";
     shipping_option_id := VNone; order_info := VNone; bot := VNone;
     _id_attrs := [VStr ""] |}.

(** [None] five times. *)
Definition null_args : list value := [VNone; VNone; VNone; VNone; VNone].

Definition null : PreCheckoutQuery :=
  {| id := VNone; from_user := VNone; currency := VNone; total_amount := VNone;
     invoice_payload := VNone; shipping_option_id := VNone; order_info := VNone;
     bot := VNone; _id_attrs := [VNone] |}.

(** Keyword arguments: the bot alone, and the bot next to a keyword the
    constructor does not know. *)
Definition only_bot : gmap string value := {["bot" := the_bot]}.
Definition with_language : gmap string value := <["language" := VStr "en"]> only_bot.

(** A call that stops after "currency". *)
Definition short_args : list value := [VStr "42"; VUser 1].
Definition short_kwargs : gmap string value := {["currency" := VStr "USD"]}.

(** Variations on the example map: a sender that is no user, an order
    that is no object, a key from a later version of the interface, an entry
    under the name of the attribute, an order that is [None]. *)
Definition wire_bad_user : gmap string value := <["from" := VDict [("id", VInt 1)]]> wire.
Definition wire_bad_order : gmap string value := <["order_info" := VInt 3]> wire.
Definition wire_language : gmap string value := <["language" := VStr "en"]> wire.
Definition wire_from_user : gmap string value := <["from_user" := VInt 7]> wire.
Definition wire_null_order : gmap string value := <["order_info" := VNone]> wire.

Definition no_kwargs : gmap string value := ∅.

(** A keyword called like the first parameter of every method. *)
Definition self_kwargs : gmap string value := {["self" := VInt 1]}.

(** The example map with a key of that name. *)
Definition wire_self : gmap string value := <["self" := VInt 1]> wire.

(** A keyword for the parameter the second positional argument fills. *)
Definition dup_kwargs : gmap string value := {["from_user" := VUser 2]}.

(** One positional argument too many. *)
Definition nine_args : list value :=
  [VStr "42"; VUser 1; VStr "USD"; VInt 145; VStr "p"; VNone; VNone; the_bot; VNone].

End Stub.

(** ** Properties *)

Section Properties.
Context {User OrderInfo Bot World : Type}.
Context `{!Collaborators User OrderInfo Bot World}.

Local Abbreviation value := (value User OrderInfo Bot).
Local Abbreviation dict := (gmap string value).
Local Abbreviation state := (state User OrderInfo Bot World).
Local Abbreviation PreCheckoutQuery := (PreCheckoutQuery User OrderInfo Bot).

Implicit Types (st : state) (h : gmap loc dict) (d kwargs : dict) (l : loc).
Implicit Types (v b : value) (args : list value).

(** *** Running the heap operations *)

Lemma bind_run {A B} (m : M A) (f : A -> M B) st :
  (m ≫= f) st =
  match m st with
  | (inl e, st') => (inl e, st')
  | (inr a, st') => f a st'
  end.
Proof. reflexivity. Qed.

Lemma set_heap_same st : set_heap (heap st) st = st.
Proof. by destruct st. Qed.

Lemma deref_run st l d : heap st !! l = Some d -> deref l st = (inr d, st).
Proof. intros Hl. unfold deref. by rewrite Hl. Qed.

Lemma deref_at st h l d :
  deref l (set_heap (<[l := d]> h) st) = (inr d, set_heap (<[l := d]> h) st).
Proof. apply deref_run. cbn. apply lookup_insert_eq. Qed.

Lemma store_at st h l d d' :
  store l d' (set_heap (<[l := d]> h) st) = (inr tt, set_heap (<[l := d']> h) st).
Proof. unfold store, set_heap. cbn. by rewrite insert_insert_eq. Qed.

Lemma dict_pop_at st h l d key :
  dict_pop l key (set_heap (<[l := d]> h) st) =
  match d !! key with
  | Some v => (inr v, set_heap (<[l := delete key d]> h) st)
  | None => (inl (KeyError key), set_heap (<[l := d]> h) st)
  end.
Proof.
  unfold dict_pop. rewrite bind_run, deref_at.
  destruct (d !! key) as [v|]; [|done].
  by rewrite bind_run, store_at.
Qed.

Lemma dict_get_at st h l d key :
  dict_get l key (set_heap (<[l := d]> h) st) =
  (inr (default VNone (d !! key)), set_heap (<[l := d]> h) st).
Proof. unfold dict_get. by rewrite bind_run, deref_at. Qed.

Lemma dict_setitem_at st h l d key v :
  dict_setitem l key v (set_heap (<[l := d]> h) st) =
  (inr tt, set_heap (<[l := <[key := v]> d]> h) st).
Proof. unfold dict_setitem. by rewrite bind_run, deref_at, store_at. Qed.

(** *** The constructor *)

Lemma has_key_false d key : d !! key = None -> has_key d key = false.
Proof. intros Hk. unfold has_key. rewrite Hk. apply bool_decide_eq_false. by intros []. Qed.

Lemma has_key_true d key v : d !! key = Some v -> has_key d key = true.
Proof. intros Hk. unfold has_key. rewrite Hk. apply bool_decide_eq_true. eauto. Qed.

(** The parameters filled by position are [self] and as many of the others
    as there are positional arguments. *)
Lemma filled_by_position kwargs n :
  existsb (has_key kwargs) (take (S n) signature) =
  has_key kwargs "self" || existsb (has_key kwargs) (take n params).
Proof. reflexivity. Qed.

Lemma too_many_positional n :
  (length signature <? S n)%nat = (length params <? n)%nat.
Proof. reflexivity. Qed.

(** What a successful construction tells: the call was well formed, the
    five required parameters were bound, and each field holds what its
    parameter was bound to, or [None] for an optional one left out. *)
Lemma init_inv args kwargs r :
  __init__ args kwargs = inr r ->
  kwargs !! "self" = None /\
  existsb (has_key kwargs) (take (length args) params) = false /\
  (length args <= length params)%nat /\
  bound args kwargs 0 "id" = Some (id r) /\
  bound args kwargs 1 "from_user" = Some (from_user r) /\
  bound args kwargs 2 "currency" = Some (currency r) /\
  bound args kwargs 3 "total_amount" = Some (total_amount r) /\
  bound args kwargs 4 "invoice_payload" = Some (invoice_payload r) /\
  shipping_option_id r = default VNone (bound args kwargs 5 "shipping_option_id") /\
  order_info r = default VNone (bound args kwargs 6 "order_info") /\
  bot r = default VNone (bound args kwargs 7 "bot") /\
  _id_attrs r = [id r].
Proof.
  unfold __init__. rewrite filled_by_position, too_many_positional.
  destruct (kwargs !! "self") as [x|] eqn:Hself.
  { by rewrite (has_key_true _ _ _ Hself). }
  rewrite (has_key_false _ _ Hself), orb_false_l.
  destruct (existsb _ _); [done|].
  destruct (_ <? _)%nat eqn:Hlen; [done|]. apply Nat.ltb_ge in Hlen.
  destruct (bound args kwargs 0 "id"), (bound args kwargs 1 "from_user"),
    (bound args kwargs 2 "currency"), (bound args kwargs 3 "total_amount"),
    (bound args kwargs 4 "invoice_payload"); try done.
  intros [= <-]. cbn. by repeat split.
Qed.

Lemma init_ok args kwargs vi vf vc vt vp :
  kwargs !! "self" = None ->
  existsb (has_key kwargs) (take (length args) params) = false ->
  (length args <= length params)%nat ->
  bound args kwargs 0 "id" = Some vi ->
  bound args kwargs 1 "from_user" = Some vf ->
  bound args kwargs 2 "currency" = Some vc ->
  bound args kwargs 3 "total_amount" = Some vt ->
  bound args kwargs 4 "invoice_payload" = Some vp ->
  exists r, __init__ args kwargs = inr r.
Proof.
  intros Hself Hdup Hlen Hi Hf Hc Ht Hp. unfold __init__.
  rewrite filled_by_position, too_many_positional, (has_key_false _ _ Hself), Hdup.
  apply Nat.ltb_ge in Hlen. rewrite Hlen, Hi, Hf, Hc, Ht, Hp. cbn. eauto.
Qed.

Lemma init_missing args kwargs i name :
  (i, name) ∈ required -> bound args kwargs i name = None ->
  exists why, __init__ args kwargs = inl (TypeError why).
Proof.
  intros Hin Hb. unfold __init__.
  destruct (existsb _ _); [eauto|]. destruct (_ <? _)%nat; [eauto|].
  unfold required in Hin. rewrite !elem_of_cons in Hin.
  destruct Hin as [Hin|[Hin|[Hin|[Hin|[Hin|Hin]]]]];
    try (by apply elem_of_nil in Hin); injection Hin as -> ->; rewrite Hb;
    repeat (match goal with |- context [match ?o with _ => _ end] =>
              lazymatch o with bound _ _ _ _ => destruct o end end);
    eauto.
Qed.

Lemma existsb_agree {A} (f g : A -> bool) (xs : list A) :
  (forall x, x ∈ xs -> f x = g x) -> existsb f xs = existsb g xs.
Proof.
  induction xs as [|x xs IH]; intros Hfg; [done|]. cbn.
  rewrite (Hfg x) by (by left). rewrite IH; [done|].
  intros y Hy. apply Hfg. by right.
Qed.

Lemma bound_insert_ne args kwargs key v i name :
  key <> name ->
  bound args (<[key := v]> kwargs) i name = bound args kwargs i name.
Proof. intros Hne. unfold bound. by rewrite lookup_insert_ne. Qed.

(** A keyword that names no parameter changes nothing. *)
Lemma init_extra args kwargs key v :
  key ∉ signature -> __init__ args (<[key := v]> kwargs) = __init__ args kwargs.
Proof.
  intros Hkey.
  assert (Hne : forall name, name ∈ signature -> key <> name) by (by intros name Hin ->).
  assert (Hnames : Forall (fun name => key <> name) signature).
  { by apply Forall_forall. }
  unfold signature, params in Hnames.
  repeat match goal with
         | H : Forall _ (_ :: _) |- _ => apply Forall_cons in H; destruct H as [? H]
         end.
  unfold __init__, missing, required.
  rewrite (existsb_agree (has_key (<[key := v]> kwargs)) (has_key kwargs)); cycle 1.
  { intros name Hin. unfold has_key. rewrite lookup_insert_ne; [done|].
    apply Hne. eapply subseteq_take, Hin. }
  cbn [filter list_filter fst snd].
  by rewrite !bound_insert_ne by done.
Qed.

(** *** Running [de_json] *)

(** On nothing, [de_json] returns nothing and touches nothing. *)
Lemma de_json_None b st : de_json None b st = (inr None, st).
Proof. reflexivity. Qed.

(** On a dictionary, [de_json] returns [de_json_value] of its content and
    at most adds one object to the heap, at the first free location. *)
Lemma de_json_run st l d b :
  heap st !! l = Some d ->
  exists h',
    de_json (Some l) b st = (de_json_value d b, set_heap h' st) /\
    (h' = heap st \/ exists d', h' = <[fresh (dom (heap st)) := d']> (heap st)).
Proof.
  intros Hl. unfold de_json, parse_data, de_json_value.
  rewrite !bind_run, (deref_run _ _ _ Hl).
  destruct (dict_is_empty d) eqn:Hd.
  { exists (heap st). rewrite set_heap_same. cbn. auto. }
  unfold alloc. cbn beta iota zeta. set (l' := fresh (dom (heap st))).
  rewrite bind_run. cbn [mret M_ret].
  rewrite bind_run, deref_at, Hd, bind_run, dict_pop_at.
  destruct (d !! "from") as [from|]; [|eauto].
  rewrite bind_run. unfold lift at 1.
  destruct (User_de_json from b) as [e|u]; cbn [mbind result_bind]; [eauto|].
  rewrite bind_run, dict_setitem_at, bind_run, dict_get_at.
  rewrite lookup_insert_ne, lookup_delete_ne by done.
  rewrite bind_run. unfold lift at 1.
  destruct (OrderInfo_de_json _ b) as [e|o]; cbn [mbind result_bind]; [eauto|].
  rewrite bind_run, dict_setitem_at, bind_run, deref_at, bind_run.
  unfold lift.
  destruct (call_cls _ _) as [e|r]; cbn; eauto.
Qed.

Lemma dict_nonempty d key v : d !! key = Some v -> dict_is_empty d = false.
Proof.
  intros Hk. unfold dict_is_empty. apply Nat.eqb_neq. intros Hs.
  apply map_size_empty_iff in Hs. subst d. by rewrite lookup_empty in Hk.
Qed.

Lemma dict_empty : dict_is_empty (∅ : dict) = true.
Proof. unfold dict_is_empty. by rewrite map_size_empty. Qed.

Lemma unpacked_wire d u o key :
  key <> "from" -> key <> "from_user" -> key <> "order_info" ->
  unpacked d u o !! key = d !! key.
Proof.
  intros. unfold unpacked.
  by rewrite !lookup_insert_ne, lookup_delete_ne.
Qed.

Lemma unpacked_from_user d u o : unpacked d u o !! "from_user" = Some u.
Proof. unfold unpacked. by rewrite lookup_insert_ne, lookup_insert_eq. Qed.

Lemma unpacked_order_info d u o : unpacked d u o !! "order_info" = Some o.
Proof. unfold unpacked. by rewrite lookup_insert_eq. Qed.

(** Every lookup the constructor call makes in the unpacked map, turned
    into a lookup in the wire map or into the value stored there. *)
Ltac unpacked_lookups :=
  rewrite (unpacked_wire _ _ _ "id"), (unpacked_wire _ _ _ "currency"),
    (unpacked_wire _ _ _ "total_amount"), (unpacked_wire _ _ _ "invoice_payload"),
    (unpacked_wire _ _ _ "shipping_option_id") by done;
  rewrite unpacked_from_user, unpacked_order_info.

(** A call with keywords only binds every parameter to its keyword. *)
Lemma call_cls_keywords b d :
  d !! "bot" = None ->
  d !! "self" = None ->
  call_cls b d =
  match d !! "id", d !! "from_user", d !! "currency", d !! "total_amount",
        d !! "invoice_payload" with
  | Some i, Some f, Some c, Some t, Some p =>
      inr {| id := i; from_user := f; currency := c; total_amount := t;
             invoice_payload := p;
             shipping_option_id := default VNone (d !! "shipping_option_id");
             order_info := default VNone (d !! "order_info");
             bot := b; _id_attrs := [i] |}
  | _, _, _, _, _ => inl (TypeError (MissingRequired (missing [] (<["bot" := b]> d))))
  end.
Proof.
  intros Hb Hself. unfold call_cls. rewrite (has_key_false _ _ Hb).
  unfold __init__. rewrite filled_by_position, too_many_positional.
  rewrite (has_key_false _ "self") by (by rewrite lookup_insert_ne).
  unfold bound. cbn [length take existsb orb Nat.ltb Nat.leb params lookup list_lookup].
  rewrite !lookup_insert_ne by done. rewrite lookup_insert_eq.
  reflexivity.
Qed.

(** A key [self] in the unpacked dictionary collides with the instance. *)
Lemma call_cls_self b d x :
  d !! "self" = Some x -> call_cls b d = inl (TypeError MultipleValues).
Proof.
  intros Hself. unfold call_cls. destruct (has_key d "bot"); [done|].
  unfold __init__. rewrite filled_by_position.
  by rewrite (has_key_true _ "self" x) by (by rewrite lookup_insert_ne).
Qed.

(** ** The claims *)

(** C1, amended: on a map that holds "id", "from", "currency",
    "total_amount" and "invoice_payload", and no key "bot" or "self", and
    on whose "from" and "order_info" entries the factories of [User] and
    [OrderInfo] return, [de_json] produces a record whose [id], [currency],
    [total_amount] and [invoice_payload] are the values of the map, whose
    [from_user] is what the [User] factory made of the "from" entry, and
    whose [order_info] is what the [OrderInfo] factory made of the
    "order_info" entry, or of [None] when there is no such entry: the
    factory is asked either way. *)
Theorem de_json_fields st l d b vid vfrom vcur vtot vpay u o :
  heap st !! l = Some d ->
  d !! "id" = Some vid ->
  d !! "from" = Some vfrom ->
  d !! "currency" = Some vcur ->
  d !! "total_amount" = Some vtot ->
  d !! "invoice_payload" = Some vpay ->
  d !! "bot" = None ->
  d !! "self" = None ->
  User_de_json vfrom b = inr u ->
  OrderInfo_de_json (default VNone (d !! "order_info")) b = inr o ->
  exists r,
    (de_json (Some l) b st).1 = inr (Some r) /\
    id r = vid /\ currency r = vcur /\ total_amount r = vtot /\
    invoice_payload r = vpay /\
    from_user r = of_user u /\
    order_info r = of_order_info o /\
    (forall v, d !! "order_info" = Some v -> OrderInfo_de_json v b = inr o) /\
    (d !! "order_info" = None -> OrderInfo_de_json VNone b = inr o) /\
    shipping_option_id r = default VNone (d !! "shipping_option_id") /\
    bot r = b.
Proof.
  intros Hl Hid Hfrom Hcur Htot Hpay Hbot Hself Hu Ho.
  destruct (de_json_run st l d b Hl) as (h' & -> & _). cbn [fst].
  unfold de_json_value.
  rewrite (dict_nonempty _ _ _ Hid), Hfrom, Hu. cbn [mbind result_bind].
  rewrite Ho. cbn [mbind result_bind].
  rewrite call_cls_keywords by (by rewrite unpacked_wire).
  unpacked_lookups. rewrite Hid, Hcur, Htot, Hpay.
  cbn [mbind result_bind default].
  eexists. split; [reflexivity|]. cbn.
  repeat split; try done.
  - intros v Hv. by rewrite Hv in Ho.
  - intros Hv. by rewrite Hv in Ho.
Qed.

(** C5: on an absent map and on an empty one, [de_json] returns nothing;
    nothing is raised and the state is left as it was. *)
Theorem de_json_nothing st l b :
  de_json None b st = (inr None, st) /\
  (heap st !! l = Some ∅ -> de_json (Some l) b st = (inr None, st)).
Proof.
  split; [reflexivity|]. intros Hl.
  unfold de_json, parse_data.
  by rewrite !bind_run, (deref_run _ _ _ Hl), dict_empty.
Qed.

(** The constructor arguments the unpacked map leaves unbound are the
    wire keys that are absent, "from" apart. *)
Lemma missing_unpacked d b u o :
  d !! "bot" = None ->
  forall name,
    name ∈ missing [] (<["bot" := b]> (unpacked d u o)) <->
    name ∈ ["id"; "currency"; "total_amount"; "invoice_payload"] /\ d !! name = None.
Proof.
  intros Hb name. unfold missing, required.
  rewrite list_elem_of_fmap. setoid_rewrite list_elem_of_filter.
  unfold bound. cbn [lookup list_lookup fst snd].
  split.
  - intros ([i n] & -> & Hn & Hin). cbn [fst snd] in *.
    rewrite !elem_of_cons in Hin. rewrite !elem_of_cons.
    destruct Hin as [Hin|[Hin|[Hin|[Hin|[Hin|Hin]]]]];
      try (by apply elem_of_nil in Hin);
      injection Hin as -> ->; cbn [lookup list_lookup] in Hn;
      rewrite lookup_insert_ne in Hn by done;
      try (by rewrite unpacked_from_user in Hn);
      rewrite unpacked_wire in Hn by done; auto 10.
  - intros [Hin Hn]. rewrite !elem_of_cons in Hin.
    destruct Hin as [->|[->|[->|[->|Hin]]]]; try (by apply elem_of_nil in Hin).
    + exists (0%nat, "id"). cbn. rewrite lookup_insert_ne, unpacked_wire by done.
      repeat split; [done|]. rewrite !elem_of_cons. auto.
    + exists (2%nat, "currency"). cbn. rewrite lookup_insert_ne, unpacked_wire by done.
      repeat split; [done|]. rewrite !elem_of_cons. auto.
    + exists (3%nat, "total_amount"). cbn. rewrite lookup_insert_ne, unpacked_wire by done.
      repeat split; [done|]. rewrite !elem_of_cons. auto.
    + exists (4%nat, "invoice_payload"). cbn. rewrite lookup_insert_ne, unpacked_wire by done.
      repeat split; [done|]. rewrite !elem_of_cons. auto 10.
Qed.

(** C3, amended: on a map that is not empty, holds no key "bot" or "self"
    and on whose entries the factories of [User] and [OrderInfo] return,
    [de_json] raises exactly when one of "id", "from", "currency",
    "total_amount", "invoice_payload" is absent, whether or not
    "shipping_option_id" and "order_info" are there: [KeyError] for
    "from"; with "from" present, the [TypeError] of the constructor
    naming the absent ones. *)
Theorem de_json_raises_iff st l d b :
  heap st !! l = Some d ->
  dict_is_empty d = false ->
  d !! "bot" = None ->
  d !! "self" = None ->
  (forall v, d !! "from" = Some v -> raised (User_de_json v b) = false) ->
  raised (OrderInfo_de_json (default VNone (d !! "order_info")) b) = false ->
  (raised (de_json (Some l) b st).1 = true <->
     d !! "id" = None \/ d !! "from" = None \/ d !! "currency" = None \/
     d !! "total_amount" = None \/ d !! "invoice_payload" = None) /\
  (d !! "from" = None -> (de_json (Some l) b st).1 = inl (KeyError "from")) /\
  (is_Some (d !! "from") -> raised (de_json (Some l) b st).1 = true ->
     exists names,
       (de_json (Some l) b st).1 = inl (TypeError (MissingRequired names)) /\
       forall name,
         name ∈ names <->
         name ∈ ["id"; "currency"; "total_amount"; "invoice_payload"] /\
         d !! name = None).
Proof.
  intros Hl Hd Hbot Hself Hu Ho.
  destruct (de_json_run st l d b Hl) as (h' & -> & _). cbn [fst].
  unfold de_json_value. rewrite Hd.
  destruct (d !! "from") as [from|] eqn:Hfrom; cycle 1.
  { repeat split; auto. by intros []. }
  specialize (Hu from eq_refl).
  destruct (User_de_json from b) as [?|u]; [done|].
  destruct (OrderInfo_de_json _ b) as [?|o]; [done|].
  cbn [mbind result_bind].
  rewrite call_cls_keywords by (by rewrite unpacked_wire).
  unpacked_lookups.
  pose proof (missing_unpacked d b (of_user u) (of_order_info o) Hbot) as Hmiss.
  split; [|split; [done|]].
  - destruct (d !! "id"), (d !! "currency"), (d !! "total_amount"),
      (d !! "invoice_payload"); cbn; split; intros; try done; auto 10;
      repeat match goal with H : _ \/ _ |- _ => destruct H end; done.
  - intros _ Hr.
    destruct (d !! "id"), (d !! "currency"), (d !! "total_amount"),
      (d !! "invoice_payload"); cbn in Hr |- *; try done; eauto.
Qed.

(** C9: [de_json] works on a copy.  The dictionary it is given, and every
    other object of the heap, is the same after the call; the world and
    the record of requests are untouched; a second call on the same
    dictionary has the outcome of the first. *)
Theorem de_json_copy st l d b :
  heap st !! l = Some d ->
  heap (de_json (Some l) b st).2 !! l = Some d /\
  (forall l0 d0, heap st !! l0 = Some d0 ->
                 heap (de_json (Some l) b st).2 !! l0 = Some d0) /\
  world (de_json (Some l) b st).2 = world st /\
  calls (de_json (Some l) b st).2 = calls st /\
  (de_json (Some l) b (de_json (Some l) b st).2).1 = (de_json (Some l) b st).1.
Proof.
  intros Hl.
  destruct (de_json_run st l d b Hl) as (h' & Hrun & Hh'). rewrite Hrun.
  cbn [fst snd].
  assert (Hframe : forall l0 d0, heap st !! l0 = Some d0 -> h' !! l0 = Some d0).
  { intros l0 d0 Hl0. destruct Hh' as [->|[d' ->]]; [done|].
    rewrite lookup_insert_ne; [done|]. intros <-.
    apply (is_fresh (dom (heap st))). apply elem_of_dom. eauto. }
  destruct (de_json_run (set_heap h' st) l d b) as (h'' & -> & _); [by apply Hframe|].
  cbn. auto.
Qed.

Lemma answer_run self args kwargs st bt :
  kwargs !! "self" = None ->
  bot self = VBot bt ->
  answer self args kwargs st = invoke bt (id self :: args) kwargs st.
Proof. intros Hself Hb. unfold answer. by rewrite (has_key_false _ _ Hself), Hb. Qed.

Lemma answer_self self args kwargs st :
  is_Some (kwargs !! "self") ->
  answer self args kwargs st = (inl (TypeError MultipleValues), st).
Proof. intros [x Hx]. unfold answer. by rewrite (has_key_true _ _ _ Hx). Qed.

(** C2, amended: on a record that holds a bot, and with keyword arguments
    none of which is called "self", [answer] sends one request through that
    bot, made of the record's [id] followed by the positional arguments,
    and of the keyword arguments, all as they were given; the outcome of
    [answer] and the world it leaves are those of that request.  A keyword
    "self" collides with the record itself: [TypeError], and nothing is
    sent. *)
Theorem answer_delegates self args kwargs st bt :
  bot self = VBot bt ->
  (kwargs !! "self" = None ->
     (answer self args kwargs st).1 =
       (answer_pre_checkout_query bt (id self :: args) kwargs (world st)).1 /\
     world (answer self args kwargs st).2 =
       (answer_pre_checkout_query bt (id self :: args) kwargs (world st)).2 /\
     calls (answer self args kwargs st).2 =
       (calls st ++ [(bt, id self :: args, kwargs)])%list /\
     heap (answer self args kwargs st).2 = heap st) /\
  (is_Some (kwargs !! "self") ->
     answer self args kwargs st = (inl (TypeError MultipleValues), st)).
Proof.
  intros Hbot. split; [|apply answer_self].
  intros Hself. rewrite (answer_run _ _ _ _ _ Hself Hbot). unfold invoke.
  by destruct (answer_pre_checkout_query _ _ _ _).
Qed.


(** C10: [answer] reads nothing of the record but [id] and [bot]: two
    records that agree on these two, given the same arguments in the same
    state, send the same request, return the same outcome and leave the
    same state. *)
Theorem answer_reads_id_and_bot (r1 r2 : PreCheckoutQuery) args kwargs st :
  id r1 = id r2 ->
  bot r1 = bot r2 ->
  answer r1 args kwargs st = answer r2 args kwargs st.
Proof. intros Hid Hbot. unfold answer. by rewrite Hid, Hbot. Qed.

Lemma py_eq_str (s t : string) : py_eq (VStr s) (VStr t) = true <-> s = t.
Proof. cbn. apply String.eqb_eq. Qed.

(** C4: two constructed records compare equal exactly when their [id]s
    do, whatever their other fields; for [id]s that are strings, exactly
    when they are the same string. *)
Theorem eq_by_id args1 kwargs1 args2 kwargs2 (r1 r2 : PreCheckoutQuery) :
  __init__ args1 kwargs1 = inr r1 ->
  __init__ args2 kwargs2 = inr r2 ->
  __eq__ r1 r2 = py_eq (id r1) (id r2) /\
  (forall s1 s2, id r1 = VStr s1 -> id r2 = VStr s2 ->
                 (__eq__ r1 r2 = true <-> s1 = s2)).
Proof.
  intros H1 H2.
  apply init_inv in H1 as (_ & _ & _ & _ & _ & _ & _ & _ & _ & _ & _ & Hk1).
  apply init_inv in H2 as (_ & _ & _ & _ & _ & _ & _ & _ & _ & _ & _ & Hk2).
  assert (Heq : __eq__ r1 r2 = py_eq (id r1) (id r2)).
  { unfold __eq__. rewrite Hk1, Hk2. cbn. apply andb_true_r. }
  split; [done|]. intros s1 s2 Hs1 Hs2.
  rewrite Heq, Hs1, Hs2. apply py_eq_str.
Qed.

(** C7, amended: the [id] and [total_amount] of a constructed record are
    the values the call gave for them, by position or by keyword, whatever
    these are, and the equality key is the 1-tuple of that [id]. *)
Theorem init_stores_verbatim args kwargs r :
  __init__ args kwargs = inr r ->
  bound args kwargs 0 "id" = Some (id r) /\
  bound args kwargs 3 "total_amount" = Some (total_amount r) /\
  _id_attrs r = [id r].
Proof.
  intros Hr. apply init_inv in Hr. tauto.
Qed.

(** C8, amended: the constructor wants "id", "from_user", "currency",
    "total_amount" and "invoice_payload" supplied: a call that leaves one
    out raises [TypeError]; a well-formed call that supplies them succeeds
    whatever the values, [None] included, and stores them.  A keyword that
    names no parameter, [self] being one of the parameters, is accepted and
    changes nothing of the outcome. *)
Theorem init_requires_five args kwargs :
  (forall i name, (i, name) ∈ required -> bound args kwargs i name = None ->
     exists why, __init__ args kwargs = inl (TypeError why)) /\
  (forall vi vf vc vt vp,
     existsb (has_key kwargs) (take (S (length args)) signature) = false ->
     (S (length args) <= length signature)%nat ->
     bound args kwargs 0 "id" = Some vi ->
     bound args kwargs 1 "from_user" = Some vf ->
     bound args kwargs 2 "currency" = Some vc ->
     bound args kwargs 3 "total_amount" = Some vt ->
     bound args kwargs 4 "invoice_payload" = Some vp ->
     exists r, __init__ args kwargs = inr r /\
               id r = vi /\ from_user r = vf /\ currency r = vc /\
               total_amount r = vt /\ invoice_payload r = vp) /\
  (forall key v, key ∉ signature ->
     __init__ args (<[key := v]> kwargs) = __init__ args kwargs).
Proof.
  split; [|split].
  - apply init_missing.
  - intros vi vf vc vt vp Hdup Hlen Hi Hf Hc Ht Hp.
    rewrite filled_by_position in Hdup. apply orb_false_elim in Hdup as [Hself Hdup].
    assert (Hs : kwargs !! "self" = None).
    { destruct (kwargs !! "self") as [x|] eqn:Hx; [|done].
      by rewrite (has_key_true _ _ _ Hx) in Hself. }
    assert (Hlen' : (length args <= length params)%nat) by (cbn in Hlen |- *; lia).
    destruct (init_ok _ _ _ _ _ _ _ Hs Hdup Hlen' Hi Hf Hc Ht Hp) as [r Hr].
    exists r. split; [done|].
    apply init_inv in Hr as (_ & _ & _ & Hi' & Hf' & Hc' & Ht' & Hp' & _).
    repeat split; congruence.
  - intros key v. apply init_extra.
Qed.

(** ** Further properties of the factory *)

Lemma de_json_outcome st l d b :
  heap st !! l = Some d -> (de_json (Some l) b st).1 = de_json_value d b.
Proof. intros Hl. by destruct (de_json_run st l d b Hl) as (h' & -> & _). Qed.

Lemma call_cls_inv b d r :
  call_cls b d = inr r ->
  d !! "self" = None /\
  d !! "bot" = None /\
  d !! "id" = Some (id r) /\
  d !! "from_user" = Some (from_user r) /\
  d !! "currency" = Some (currency r) /\
  d !! "total_amount" = Some (total_amount r) /\
  d !! "invoice_payload" = Some (invoice_payload r) /\
  shipping_option_id r = default VNone (d !! "shipping_option_id") /\
  order_info r = default VNone (d !! "order_info") /\
  bot r = b /\
  _id_attrs r = [id r].
Proof.
  intros Hr. destruct (d !! "bot") as [x|] eqn:Hb.
  { unfold call_cls in Hr. by rewrite (has_key_true _ _ _ Hb) in Hr. }
  destruct (d !! "self") as [x|] eqn:Hself.
  { by rewrite (call_cls_self _ _ _ Hself) in Hr. }
  rewrite call_cls_keywords in Hr by done.
  destruct (d !! "id"), (d !! "from_user"), (d !! "currency"),
    (d !! "total_amount"), (d !! "invoice_payload"); try done.
  injection Hr as <-. cbn. by repeat split.
Qed.

Lemma de_json_value_inv d b r :
  de_json_value d b = inr (Some r) ->
  d !! "bot" = None /\
  d !! "id" = Some (id r) /\
  d !! "currency" = Some (currency r) /\
  d !! "total_amount" = Some (total_amount r) /\
  d !! "invoice_payload" = Some (invoice_payload r) /\
  (exists from u, d !! "from" = Some from /\ User_de_json from b = inr u /\
                  from_user r = of_user u) /\
  (exists o, OrderInfo_de_json (default VNone (d !! "order_info")) b = inr o /\
             order_info r = of_order_info o) /\
  shipping_option_id r = default VNone (d !! "shipping_option_id") /\
  bot r = b /\
  _id_attrs r = [id r].
Proof.
  unfold de_json_value.
  destruct (dict_is_empty d); [done|].
  destruct (d !! "from") as [from|] eqn:Hfrom; [|done].
  destruct (User_de_json from b) as [?|u] eqn:Hu; [done|].
  destruct (OrderInfo_de_json _ b) as [?|o] eqn:Ho; [done|].
  cbn [mbind result_bind].
  destruct (call_cls _ _) as [?|r'] eqn:Hcall; [done|].
  intros [= ->].
  apply call_cls_inv in Hcall
    as (_ & Hb & Hi & Hf & Hc & Ht & Hp & Hs & Hoi & Hbot & Hk).
  rewrite unpacked_wire in Hb, Hi, Hc, Ht, Hp, Hs by done.
  rewrite unpacked_from_user in Hf. rewrite unpacked_order_info in Hoi.
  injection Hf as Hf. cbn in Hoi.
  repeat split; eauto.
Qed.

(** When [de_json] returns a record, the map held the five required keys
    and no key "bot", both factories returned, and every field of the
    record is accounted for. *)
Theorem de_json_record_inv st l d b r :
  heap st !! l = Some d ->
  (de_json (Some l) b st).1 = inr (Some r) ->
  d !! "bot" = None /\
  d !! "id" = Some (id r) /\
  d !! "currency" = Some (currency r) /\
  d !! "total_amount" = Some (total_amount r) /\
  d !! "invoice_payload" = Some (invoice_payload r) /\
  (exists from u, d !! "from" = Some from /\ User_de_json from b = inr u /\
                  from_user r = of_user u) /\
  (exists o, OrderInfo_de_json (default VNone (d !! "order_info")) b = inr o /\
             order_info r = of_order_info o) /\
  shipping_option_id r = default VNone (d !! "shipping_option_id") /\
  bot r = b /\
  _id_attrs r = [id r].
Proof.
  intros Hl. rewrite (de_json_outcome _ _ _ _ Hl). apply de_json_value_inv.
Qed.

(** On a dictionary, [de_json] returns nothing only when the dictionary is
    empty. *)
Theorem de_json_none_iff_empty st l d b :
  heap st !! l = Some d ->
  (de_json (Some l) b st).1 = inr None <-> d = ∅.
Proof.
  intros Hl. rewrite (de_json_outcome _ _ _ _ Hl). unfold de_json_value.
  destruct (dict_is_empty d) eqn:Hd.
  - split; [|done]. intros _. apply map_size_empty_iff.
    unfold dict_is_empty in Hd. by apply Nat.eqb_eq in Hd.
  - split.
    + destruct (d !! "from"); [|done].
      destruct (User_de_json _ b); [done|].
      destruct (OrderInfo_de_json _ b); [done|]. cbn [mbind result_bind].
      by destruct (call_cls _ _).
    + intros ->. by rewrite dict_empty in Hd.
Qed.

(** What a factory raises is what [de_json] raises, the [User] factory
    first, whatever else is wrong with the map. *)
Theorem de_json_factory_errors st l d b from e :
  heap st !! l = Some d ->
  d !! "from" = Some from ->
  (User_de_json from b = inl e -> (de_json (Some l) b st).1 = inl e) /\
  (forall u, User_de_json from b = inr u ->
             OrderInfo_de_json (default VNone (d !! "order_info")) b = inl e ->
             (de_json (Some l) b st).1 = inl e).
Proof.
  intros Hl Hfrom. rewrite (de_json_outcome _ _ _ _ Hl). unfold de_json_value.
  rewrite (dict_nonempty _ _ _ Hfrom), Hfrom.
  split; [by intros ->|]. intros u -> Ho. cbn [mbind result_bind]. by rewrite Ho.
Qed.

(** A map with a key "bot" is refused, complete as it may be: the key
    collides with the keyword through which the factory passes the bot. *)
Theorem de_json_bot_key_refused st l d b from x u o :
  heap st !! l = Some d ->
  d !! "from" = Some from ->
  d !! "bot" = Some x ->
  User_de_json from b = inr u ->
  OrderInfo_de_json (default VNone (d !! "order_info")) b = inr o ->
  (de_json (Some l) b st).1 = inl (TypeError MultipleValues).
Proof.
  intros Hl Hfrom Hbot Hu Ho. rewrite (de_json_outcome _ _ _ _ Hl).
  unfold de_json_value.
  rewrite (dict_nonempty _ _ _ Hfrom), Hfrom, Hu. cbn [mbind result_bind].
  rewrite Ho. cbn [mbind result_bind]. unfold call_cls.
  rewrite (has_key_true _ "bot" x); [done|]. by rewrite unpacked_wire.
Qed.

Lemma call_cls_extra b d key v :
  key ∉ signature -> call_cls b (<[key := v]> d) = call_cls b d.
Proof.
  intros Hkey. unfold call_cls.
  assert (Hne : key <> "bot") by (intros ->; apply Hkey; compute_done).
  unfold has_key at 1. rewrite lookup_insert_ne by done. fold (has_key d "bot").
  destruct (has_key d "bot"); [done|].
  rewrite insert_insert_ne by done. by apply init_extra.
Qed.

(** A key that is neither "from" nor the name of a parameter of the
    constructor, [self] included, changes nothing of what [de_json] makes of
    a map. *)
Theorem de_json_ignores_unknown_key st st' l l' d b key v :
  heap st !! l = Some d ->
  heap st' !! l' = Some (<[key := v]> d) ->
  dict_is_empty d = false ->
  key <> "from" ->
  key ∉ signature ->
  (de_json (Some l') b st').1 = (de_json (Some l) b st).1.
Proof.
  intros Hl Hl' Hd Hfrom Hkey.
  rewrite (de_json_outcome _ _ _ _ Hl), (de_json_outcome _ _ _ _ Hl').
  assert (Hu : key <> "from_user") by (intros ->; apply Hkey; compute_done).
  assert (Ho : key <> "order_info") by (intros ->; apply Hkey; compute_done).
  unfold de_json_value.
  rewrite (dict_nonempty (<[key := v]> d) key v) by apply lookup_insert_eq.
  rewrite Hd, !lookup_insert_ne by done.
  destruct (d !! "from") as [from|]; [|done].
  destruct (User_de_json from b) as [?|u]; [done|].
  destruct (OrderInfo_de_json _ b) as [?|o]; [done|].
  cbn [mbind result_bind]. unfold unpacked.
  rewrite delete_insert_ne by done.
  rewrite (insert_insert_ne _ "from_user" key) by done.
  rewrite (insert_insert_ne _ "order_info" key) by done.
  by rewrite call_cls_extra.
Qed.

(** An entry "from_user" of the map never reaches the record: the factory
    overwrites it with the user it decodes from "from". *)
Theorem de_json_overwrites_from_user st st' l l' d b v :
  heap st !! l = Some d ->
  heap st' !! l' = Some (<["from_user" := v]> d) ->
  dict_is_empty d = false ->
  (de_json (Some l') b st').1 = (de_json (Some l) b st).1.
Proof.
  intros Hl Hl' Hd.
  rewrite (de_json_outcome _ _ _ _ Hl), (de_json_outcome _ _ _ _ Hl').
  unfold de_json_value.
  rewrite (dict_nonempty (<["from_user" := v]> d) "from_user" v) by apply lookup_insert_eq.
  rewrite Hd, !lookup_insert_ne by done.
  destruct (d !! "from") as [from|]; [|done].
  destruct (User_de_json from b) as [?|u]; [done|].
  destruct (OrderInfo_de_json _ b) as [?|o]; [done|].
  cbn [mbind result_bind]. unfold unpacked.
  by rewrite delete_insert_ne, insert_insert_eq by done.
Qed.

(** An "order_info" that is [None] counts as an "order_info" that is not
    there. *)
Theorem de_json_null_order_info st st' l l' d b :
  heap st !! l = Some d ->
  heap st' !! l' = Some (<["order_info" := VNone]> d) ->
  dict_is_empty d = false ->
  d !! "order_info" = None ->
  (de_json (Some l') b st').1 = (de_json (Some l) b st).1.
Proof.
  intros Hl Hl' Hd Hoi.
  rewrite (de_json_outcome _ _ _ _ Hl), (de_json_outcome _ _ _ _ Hl').
  unfold de_json_value.
  rewrite (dict_nonempty (<["order_info" := VNone]> d) "order_info" VNone)
    by apply lookup_insert_eq.
  rewrite Hd, lookup_insert_eq, Hoi, lookup_insert_ne by done.
  destruct (d !! "from") as [from|]; [|done].
  destruct (User_de_json from b) as [?|u]; [done|].
  destruct (OrderInfo_de_json _ b) as [?|o]; [done|].
  cbn [mbind result_bind default]. unfold unpacked.
  rewrite delete_insert_ne by done.
  rewrite (insert_insert_ne _ "from_user" "order_info") by done.
  by rewrite insert_insert_eq.
Qed.

(** The factory followed by the shortcut: answering a record decoded with
    a bot, with no keyword called "self", sends through that bot a request
    that starts with the "id" of the map. *)
Theorem de_json_then_answer st l d bt vid r args kwargs st' :
  heap st !! l = Some d ->
  d !! "id" = Some vid ->
  (de_json (Some l) (VBot bt) st).1 = inr (Some r) ->
  kwargs !! "self" = None ->
  (answer r args kwargs st').1 =
    (answer_pre_checkout_query bt (vid :: args) kwargs (world st')).1 /\
  calls (answer r args kwargs st').2 = (calls st' ++ [(bt, vid :: args, kwargs)])%list.
Proof.
  intros Hl Hid Hr Hself. rewrite (de_json_outcome _ _ _ _ Hl) in Hr.
  apply de_json_value_inv in Hr as (_ & Hi & _ & _ & _ & _ & _ & _ & Hb & _).
  assert (Hv : id r = vid) by congruence.
  rewrite (answer_run _ _ _ _ _ Hself Hb), Hv. unfold invoke.
  by destruct (answer_pre_checkout_query _ _ _ _).
Qed.

(** ** Further properties of the constructor *)

Lemma params_NoDup : NoDup params.
Proof. compute_done. Qed.

Lemma has_key_empty key : has_key (∅ : dict) key = false.
Proof. apply has_key_false, lookup_empty. Qed.

(** A record is rebuilt by handing its eight attributes, in order, to the
    constructor. *)
Theorem init_round_trip args kwargs r :
  __init__ args kwargs = inr r ->
  __init__ [id r; from_user r; currency r; total_amount r; invoice_payload r;
            shipping_option_id r; order_info r; bot r] ∅ = inr r.
Proof.
  intros Hr. apply init_inv in Hr as (_ & _ & _ & _ & _ & _ & _ & _ & _ & _ & _ & Hk).
  unfold __init__. cbn [length take signature params existsb].
  rewrite !has_key_empty. cbn.
  destruct r; cbn in *. by rewrite Hk.
Qed.

(** A keyword that names a parameter already filled by position is
    refused. *)
Theorem init_refuses_duplicate args kwargs i name :
  (i < length args)%nat ->
  params !! i = Some name ->
  is_Some (kwargs !! name) ->
  __init__ args kwargs = inl (TypeError MultipleValues).
Proof.
  intros Hi Hname Hkw. unfold __init__. rewrite filled_by_position.
  assert (Hex : existsb (has_key kwargs) (take (length args) params) = true).
  { apply existsb_exists. exists name. split.
    - apply list_elem_of_In, elem_of_take. eauto.
    - by apply bool_decide_eq_true. }
  by rewrite Hex, orb_true_r.
Qed.

(** More than eight positional arguments are refused, with the count the
    interpreter reports, when no keyword names a parameter, [self] included:
    such a keyword is refused first. *)
Theorem init_refuses_too_many args kwargs :
  (length params < length args)%nat ->
  (forall name, name ∈ signature -> kwargs !! name = None) ->
  __init__ args kwargs = inl (TypeError (TooManyPositional (S (length args)))).
Proof.
  intros Hlen Hkw. unfold __init__.
  rewrite (existsb_agree (has_key kwargs) (fun _ => false)); cycle 1.
  { intros name Hin. apply has_key_false, Hkw. eapply subseteq_take, Hin. }
  assert (Hno : forall xs : list string, existsb (fun _ => false) xs = false)
    by (induction xs; auto).
  rewrite Hno, too_many_positional. apply Nat.ltb_lt in Hlen. by rewrite Hlen.
Qed.

Lemma bound_move args kwargs name v i nm :
  params !! length args = Some name ->
  params !! i = Some nm ->
  bound (args ++ [v]) kwargs i nm = bound args (<[name := v]> kwargs) i nm.
Proof.
  intros Hname Hnm. unfold bound.
  destruct (decide (i < length args)%nat) as [Hlt|Hge].
  { destruct (lookup_lt_is_Some_2 args i Hlt) as [x Hx].
    by rewrite lookup_app_l, Hx by done. }
  rewrite (lookup_ge_None_2 args i) by lia.
  destruct (decide (i = length args)) as [->|Hne].
  - rewrite list_lookup_middle by done.
    assert (nm = name) as -> by congruence. by rewrite lookup_insert_eq.
  - rewrite lookup_ge_None_2 by (rewrite length_app; cbn; lia).
    rewrite lookup_insert_ne; [done|]. intros <-.
    apply Hne. symmetry. eapply (NoDup_lookup params); eauto using params_NoDup.
Qed.

(** An argument may go by position or by keyword: the last positional
    argument, given instead under the name of its parameter, makes the same
    record, or the same error. *)
Theorem init_positional_or_keyword args kwargs name v :
  params !! length args = Some name ->
  kwargs !! name = None ->
  __init__ (args ++ [v]) kwargs = __init__ args (<[name := v]> kwargs).
Proof.
  intros Hname Hkw.
  pose proof (lookup_lt_Some _ _ _ Hname) as Hlen. unfold params in Hlen. cbn in Hlen.
  unfold __init__, missing, required.
  cbn [filter list_filter fst snd].
  rewrite !(bound_move args kwargs name v) by done.
  rewrite length_app. cbn [length]. rewrite Nat.add_1_r.
  rewrite !filled_by_position, !too_many_positional.
  rewrite (take_S_r _ _ _ Hname), existsb_app. cbn [existsb].
  rewrite (has_key_false _ _ Hkw), !orb_false_r.
  assert (Hself : has_key (<[name := v]> kwargs) "self" = has_key kwargs "self").
  { unfold has_key. rewrite lookup_insert_ne; [done|]. intros ->.
    apply list_elem_of_lookup_2 in Hname. revert Hname. compute_done. }
  rewrite Hself.
  rewrite (existsb_agree (has_key kwargs) (has_key (<[name := v]> kwargs))); cycle 1.
  { intros p Hp. unfold has_key. rewrite lookup_insert_ne; [done|]. intros <-.
    apply elem_of_take in Hp as (j & Hj & Hlt).
    assert (length args = j) by (eapply (NoDup_lookup params); eauto using params_NoDup).
    lia. }
  destruct (_ || _); [done|].
  assert (Hl1 : (length params <? S (length args))%nat = false)
    by (apply Nat.ltb_ge; cbn; lia).
  assert (Hl2 : (length params <? length args)%nat = false)
    by (apply Nat.ltb_ge; cbn; lia).
  by rewrite Hl1, Hl2.
Qed.

(** ** Further properties of the shortcut *)

(** Answering twice, with no keyword called "self", sends two requests, in
    that order, the second to the world the first one left; a first request
    that raised was sent all the same. *)
Theorem answer_twice self args1 kwargs1 args2 kwargs2 st bt :
  bot self = VBot bt ->
  kwargs1 !! "self" = None ->
  kwargs2 !! "self" = None ->
  calls (answer self args2 kwargs2 (answer self args1 kwargs1 st).2).2 =
    (calls st ++ [(bt, id self :: args1, kwargs1); (bt, id self :: args2, kwargs2)])%list /\
  (answer self args2 kwargs2 (answer self args1 kwargs1 st).2).1 =
    (answer_pre_checkout_query bt (id self :: args2) kwargs2
       (answer_pre_checkout_query bt (id self :: args1) kwargs1 (world st)).2).1.
Proof.
  intros Hb Hs1 Hs2.
  rewrite (answer_run _ _ kwargs1 _ _ Hs1 Hb), !(answer_run _ _ kwargs2 _ _ Hs2 Hb).
  unfold invoke.
  destruct (answer_pre_checkout_query bt (id self :: args1) _ _) as [r1 w1]. cbn.
  destruct (answer_pre_checkout_query bt (id self :: args2) _ _) as [r2 w2]. cbn.
  by rewrite <- app_assoc.
Qed.

End Properties.

(** ** The claims on concrete inputs

  Each theorem above that has premises is applied here to the test doubles,
  which shows its premises satisfiable; the claims that had to be amended
  come with the input on which the original wording fails. *)

Import Stub.

Local Abbreviation L1 := (1%positive : loc).

Lemma de_json_fields_witness :
  (exists r,
     (de_json (Some L1) the_bot (holding wire)).1 = inr (Some r) /\
     id r = VStr "42" /\ currency r = VStr "USD" /\ total_amount r = VInt 145 /\
     invoice_payload r = VStr "p" /\
     from_user r = VUser 1 /\
     order_info r = VOrderInfo "" /\
     (forall v, wire !! "order_info" = Some v ->
                OrderInfo_de_json v the_bot = inr (Some "")) /\
     (wire !! "order_info" = None -> OrderInfo_de_json VNone the_bot = inr (Some "")) /\
     shipping_option_id r = VNone /\
     bot r = the_bot) /\
  (exists r,
     (de_json (Some L1) the_bot (holding wire_order)).1 = inr (Some r) /\
     id r = VStr "42" /\ currency r = VStr "USD" /\ total_amount r = VInt 145 /\
     invoice_payload r = VStr "p" /\
     from_user r = VUser 1 /\
     order_info r = VOrderInfo "B" /\
     (forall v, wire_order !! "order_info" = Some v ->
                OrderInfo_de_json v the_bot = inr (Some "B")) /\
     (wire_order !! "order_info" = None ->
      OrderInfo_de_json VNone the_bot = inr (Some "B")) /\
     shipping_option_id r = VNone /\
     bot r = the_bot).
Proof.
  split.
  - apply (de_json_fields (holding wire) L1 wire the_bot
             (VStr "42") alice (VStr "USD") (VInt 145) (VStr "p") (Some 1) (Some ""));
      vm_compute; reflexivity.
  - apply (de_json_fields (holding wire_order) L1 wire_order the_bot
             (VStr "42") alice (VStr "USD") (VInt 145) (VStr "p") (Some 1) (Some "B"));
      vm_compute; reflexivity.
Defined.

(** C1 as stated fails: the example map has no "order_info", and the
    record made of it has an order all the same, the empty one the factory
    of orders makes of [None]. *)
Lemma de_json_absent_order_info :
  wire !! "order_info" = None /\
  (de_json (Some L1) the_bot (holding wire)).1 = inr (Some decoded) /\
  order_info decoded = VOrderInfo "" /\
  order_info decoded <> VNone.
Proof. repeat split; try (vm_compute; reflexivity). discriminate. Qed.

(** It fails as well on a map with a key called like a parameter the
    factory or the interpreter fills: "bot", or "self". *)
Lemma de_json_self_key :
  (de_json (Some L1) the_bot (holding wire_self)).1 = inl (TypeError MultipleValues).
Proof. vm_compute. reflexivity. Qed.

Lemma de_json_nothing_witness :
  de_json None the_bot (holding ∅) = (inr None, holding ∅) /\
  de_json (Some L1) the_bot (holding ∅) = (inr None, holding ∅).
Proof.
  destruct (de_json_nothing (holding ∅) L1 the_bot) as [Hnone Hempty].
  split; [exact Hnone|]. apply Hempty. vm_compute. reflexivity.
Defined.

(** C3 as stated fails: without "from", [de_json] raises although "id",
    "currency", "total_amount" and "invoice_payload" are all there. *)
Lemma de_json_needs_from :
  ~ (raised (de_json (Some L1) the_bot (holding wire_no_from)).1 = true <->
     wire_no_from !! "id" = None \/ wire_no_from !! "currency" = None \/
     wire_no_from !! "total_amount" = None \/
     wire_no_from !! "invoice_payload" = None).
Proof.
  intros [Hraise _].
  assert (Hr : raised (de_json (Some L1) the_bot (holding wire_no_from)).1 = true)
    by (vm_compute; reflexivity).
  destruct (Hraise Hr) as [H|[H|[H|H]]]; vm_compute in H; discriminate H.
Qed.

(** What is raised there, and the other way round: on an empty map every
    required key is absent and nothing is raised. *)
Lemma missing_from_and_empty_map :
  (de_json (Some L1) the_bot (holding wire_no_from)).1 = inl (KeyError "from") /\
  (de_json (Some L1) the_bot (holding ∅)).1 = inr None.
Proof. split; vm_compute; reflexivity. Qed.

(** A key "bot" collides with the keyword the factory passes itself. *)
Lemma de_json_bot_key :
  (de_json (Some L1) the_bot (holding wire_bot)).1 = inl (TypeError MultipleValues).
Proof. vm_compute. reflexivity. Qed.

Lemma de_json_raises_iff_witness :
  (raised (de_json (Some L1) the_bot (holding (delete "id" wire))).1 = true <->
     delete "id" wire !! "id" = None \/ delete "id" wire !! "from" = None \/
     delete "id" wire !! "currency" = None \/
     delete "id" wire !! "total_amount" = None \/
     delete "id" wire !! "invoice_payload" = None) /\
  (delete "id" wire !! "from" = None ->
     (de_json (Some L1) the_bot (holding (delete "id" wire))).1 = inl (KeyError "from")) /\
  (is_Some (delete "id" wire !! "from") ->
   raised (de_json (Some L1) the_bot (holding (delete "id" wire))).1 = true ->
     exists names,
       (de_json (Some L1) the_bot (holding (delete "id" wire))).1 =
         inl (TypeError (MissingRequired names)) /\
       forall name,
         name ∈ names <->
         name ∈ ["id"; "currency"; "total_amount"; "invoice_payload"] /\
         delete "id" wire !! name = None).
Proof.
  apply (de_json_raises_iff (holding (delete "id" wire)) L1 (delete "id" wire) the_bot).
  - vm_compute. reflexivity.
  - vm_compute. reflexivity.
  - vm_compute. reflexivity.
  - vm_compute. reflexivity.
  - intros v Hv. vm_compute in Hv. injection Hv as <-. vm_compute. reflexivity.
  - vm_compute. reflexivity.
Defined.

Lemma de_json_copy_witness :
  heap (de_json (Some L1) the_bot (holding wire)).2 !! L1 = Some wire /\
  (forall l0 d0, heap (holding wire) !! l0 = Some d0 ->
                 heap (de_json (Some L1) the_bot (holding wire)).2 !! l0 = Some d0) /\
  world (de_json (Some L1) the_bot (holding wire)).2 = world (holding wire) /\
  calls (de_json (Some L1) the_bot (holding wire)).2 = calls (holding wire) /\
  (de_json (Some L1) the_bot (de_json (Some L1) the_bot (holding wire)).2).1 =
    (de_json (Some L1) the_bot (holding wire)).1.
Proof.
  apply (de_json_copy (holding wire) L1 wire the_bot). vm_compute. reflexivity.
Defined.

Lemma answer_delegates_witness :
  ((answer query [VBool true] no_kwargs idle).1 = inr true /\
   world (answer query [VBool true] no_kwargs idle).2 = 1%nat /\
   calls (answer query [VBool true] no_kwargs idle).2 =
     [("token", [VStr "42"; VBool true], no_kwargs)] /\
   heap (answer query [VBool true] no_kwargs idle).2 = ∅) /\
  answer query [VBool true] self_kwargs idle = (inl (TypeError MultipleValues), idle).
Proof.
  split.
  - exact (proj1 (answer_delegates query [VBool true] no_kwargs idle "token" eq_refl)
             eq_refl).
  - apply (proj2 (answer_delegates query [VBool true] self_kwargs idle "token" eq_refl)).
    vm_compute. eauto.
Defined.

(** C2 as stated fails: with a keyword "self" the call is refused while its
    arguments are bound, and the bot of the record gets no request. *)
Lemma answer_refuses_self :
  bot query = VBot "token" /\
  (answer query [VBool true] self_kwargs idle).1 = inl (TypeError MultipleValues) /\
  calls (answer query [VBool true] self_kwargs idle).2 = [].
Proof. repeat split. Qed.



Lemma answer_reads_id_and_bot_witness :
  answer query [VBool true] ∅ idle = answer other [VBool true] ∅ idle.
Proof.
  apply (answer_reads_id_and_bot query other [VBool true] ∅ idle); reflexivity.
Defined.

Lemma eq_by_id_witness :
  __eq__ query other = py_eq (id query) (id other) /\
  (forall s1 s2, id query = VStr s1 -> id other = VStr s2 ->
                 (__eq__ query other = true <-> s1 = s2)).
Proof.
  apply (eq_by_id query_args only_bot other_args only_bot);
    vm_compute; reflexivity.
Defined.

(** C7 as stated fails: the constructor takes an empty [id] and a negative
    [total_amount] as they come. *)
Lemma init_unvalidated :
  __init__ odd_args ∅ = inr odd /\
  id odd = VStr "" /\ total_amount odd = VInt (-1).
Proof. repeat split. Qed.

Lemma init_stores_verbatim_witness :
  bound odd_args ∅ 0 "id" = Some (id odd) /\
  bound odd_args ∅ 3 "total_amount" = Some (total_amount odd) /\
  _id_attrs odd = [id odd].
Proof.
  apply (init_stores_verbatim odd_args ∅ odd). reflexivity.
Defined.

(** C8 as stated fails: [None] is as good as any value for a required
    parameter. *)
Lemma init_accepts_None : __init__ null_args ∅ = inr null.
Proof. reflexivity. Qed.

Lemma init_requires_five_witness :
  (exists why, __init__ short_args short_kwargs = inl (TypeError why)) /\
  (exists r, __init__ null_args only_bot = inr r /\
             id r = VNone /\ from_user r = VNone /\ currency r = VNone /\
             total_amount r = VNone /\ invoice_payload r = VNone) /\
  __init__ query_args with_language = __init__ query_args only_bot.
Proof.
  split; [|split].
  - apply (proj1 (init_requires_five short_args short_kwargs) 3%nat "total_amount").
    + compute_done.
    + vm_compute. reflexivity.
  - apply (proj1 (proj2 (init_requires_five null_args only_bot)));
      vm_compute; (reflexivity || lia).
  - apply (proj2 (proj2 (init_requires_five query_args only_bot))). compute_done.
Defined.

(** A keyword "self" is no extra: the instance already fills that
    parameter. *)
Lemma init_refuses_self :
  __init__ query_args self_kwargs = inl (TypeError MultipleValues).
Proof. vm_compute. reflexivity. Qed.

(** ** The further properties on concrete inputs *)

Lemma de_json_record_inv_witness :
  wire !! "bot" = None /\
  wire !! "id" = Some (id decoded) /\
  wire !! "currency" = Some (currency decoded) /\
  wire !! "total_amount" = Some (total_amount decoded) /\
  wire !! "invoice_payload" = Some (invoice_payload decoded) /\
  (exists from u, wire !! "from" = Some from /\ User_de_json from the_bot = inr u /\
                  from_user decoded = of_user u) /\
  (exists o, OrderInfo_de_json (default VNone (wire !! "order_info")) the_bot = inr o /\
             order_info decoded = of_order_info o) /\
  shipping_option_id decoded = default VNone (wire !! "shipping_option_id") /\
  bot decoded = the_bot /\
  _id_attrs decoded = [id decoded].
Proof.
  apply (de_json_record_inv (holding wire) L1 wire the_bot decoded);
    vm_compute; reflexivity.
Defined.

Lemma de_json_none_iff_empty_witness :
  (de_json (Some L1) the_bot (holding no_kwargs)).1 = inr None <-> no_kwargs = ∅.
Proof.
  apply (de_json_none_iff_empty (holding no_kwargs) L1 no_kwargs the_bot).
  vm_compute. reflexivity.
Defined.

Lemma de_json_factory_errors_witness :
  (de_json (Some L1) the_bot (holding wire_bad_user)).1 =
    inl (TypeError (MissingRequired ["first_name"; "is_bot"])) /\
  (de_json (Some L1) the_bot (holding wire_bad_order)).1 =
    inl (AttributeError "int" "copy").
Proof.
  split.
  - apply (proj1 (de_json_factory_errors (holding wire_bad_user) L1 wire_bad_user the_bot
                    (VDict [("id", VInt 1)])
                    (TypeError (MissingRequired ["first_name"; "is_bot"]))
                    eq_refl eq_refl)).
    vm_compute. reflexivity.
  - apply (proj2 (de_json_factory_errors (holding wire_bad_order) L1 wire_bad_order the_bot
                    alice (AttributeError "int" "copy") eq_refl eq_refl) (Some 1));
      vm_compute; reflexivity.
Defined.

Lemma de_json_bot_key_refused_witness :
  (de_json (Some L1) the_bot (holding wire_bot)).1 = inl (TypeError MultipleValues).
Proof.
  apply (de_json_bot_key_refused (holding wire_bot) L1 wire_bot the_bot
           alice (VInt 1) (Some 1) (Some ""));
    vm_compute; reflexivity.
Defined.

Lemma de_json_ignores_unknown_key_witness :
  (de_json (Some L1) the_bot (holding wire_language)).1 =
    (de_json (Some L1) the_bot (holding wire)).1.
Proof.
  apply (de_json_ignores_unknown_key (holding wire) (holding wire_language) L1 L1
           wire the_bot "language" (VStr "en")).
  - vm_compute. reflexivity.
  - vm_compute. reflexivity.
  - vm_compute. reflexivity.
  - discriminate.
  - compute_done.
Defined.

Lemma de_json_overwrites_from_user_witness :
  (de_json (Some L1) the_bot (holding wire_from_user)).1 =
    (de_json (Some L1) the_bot (holding wire)).1.
Proof.
  apply (de_json_overwrites_from_user (holding wire) (holding wire_from_user) L1 L1
           wire the_bot (VInt 7));
    vm_compute; reflexivity.
Defined.

Lemma de_json_null_order_info_witness :
  (de_json (Some L1) the_bot (holding wire_null_order)).1 =
    (de_json (Some L1) the_bot (holding wire)).1.
Proof.
  apply (de_json_null_order_info (holding wire) (holding wire_null_order) L1 L1
           wire the_bot);
    vm_compute; reflexivity.
Defined.

Lemma de_json_then_answer_witness :
  (answer decoded [VBool false] no_kwargs idle).1 =
    (answer_pre_checkout_query ("token" : Stub.Bot) [VStr "42"; VBool false] no_kwargs
       (world idle)).1 /\
  calls (answer decoded [VBool false] no_kwargs idle).2 =
    (calls idle ++ [(("token" : Stub.Bot), [VStr "42"; VBool false], no_kwargs)])%list.
Proof.
  apply (de_json_then_answer (holding wire) L1 wire "token" (VStr "42") decoded
           [VBool false] no_kwargs idle);
    vm_compute; reflexivity.
Defined.

Lemma init_round_trip_witness :
  __init__ [id other; from_user other; currency other; total_amount other;
            invoice_payload other; shipping_option_id other; order_info other;
            bot other] ∅ = inr other.
Proof.
  apply (init_round_trip other_args only_bot other). vm_compute. reflexivity.
Defined.

Lemma init_refuses_duplicate_witness :
  __init__ short_args dup_kwargs = inl (TypeError MultipleValues).
Proof.
  apply (init_refuses_duplicate short_args dup_kwargs 1%nat "from_user").
  - cbn. lia.
  - reflexivity.
  - vm_compute. eauto.
Defined.

Lemma init_refuses_too_many_witness :
  __init__ nine_args no_kwargs = inl (TypeError (TooManyPositional 10)).
Proof.
  apply (init_refuses_too_many nine_args no_kwargs).
  - cbn. lia.
  - intros name _. reflexivity.
Defined.

Lemma init_positional_or_keyword_witness :
  __init__ (query_args ++ [VStr "express"]) only_bot =
    __init__ query_args (<["shipping_option_id" := VStr "express"]> only_bot).
Proof.
  apply (init_positional_or_keyword query_args only_bot "shipping_option_id"
           (VStr "express"));
    vm_compute; reflexivity.
Defined.

Lemma answer_twice_witness :
  calls (answer query [VBool false] no_kwargs (answer query [VBool true] no_kwargs idle).2).2 =
    (calls idle ++ [(("token" : Stub.Bot), id query :: [VBool true], no_kwargs);
                    ("token", id query :: [VBool false], no_kwargs)])%list /\
  (answer query [VBool false] no_kwargs (answer query [VBool true] no_kwargs idle).2).1 =
    (answer_pre_checkout_query ("token" : Stub.Bot) (id query :: [VBool false]) no_kwargs
       (answer_pre_checkout_query ("token" : Stub.Bot) (id query :: [VBool true]) no_kwargs
          (world idle)).2).1.
Proof.
  apply (answer_twice query [VBool true] no_kwargs [VBool false] no_kwargs idle "token");
    reflexivity.
Defined.
